(** * MyDataset: a list-backed dataset and its consumers

    Shallow embedding of the notebook [05-dataset_manipulation.ipynb]:

    - the class [MyDataset] with [__init__], [__len__] and [__getitem__];
    - Python's iteration over an object that has [__getitem__] but no
      [__iter__] (the sequence protocol: indices 0, 1, 2, ... until
      [IndexError]);
    - the three consumers of the notebook: the [Counter] loop
      ([label_counter]), [list(dataset)] and [list(zip( *dataset))].

    Python values are an arbitrary type [V]; Python integers are [Z].
    Methods receive [self] and are written in a state-and-exception monad over
    the object's attributes, so that "does not mutate the dataset" is a
    statement about the final state and not a consequence of typing. *)

From stdpp Require Import gmap list.

Local Open Scope Z_scope.

(** ** Exceptions and results *)

(** The only exception the notebook's code can raise: list indexing out of
    range.  It plays the part of the specification's IndexOutOfRangeError. *)
Inductive exn : Type :=
  | IndexError.

(** Outcome of running a piece of Python code: a value, a raised exception,
    or [OutOfFuel] when a loop of the model was cut by its step budget. *)
Inductive result (A : Type) : Type :=
  | Ok (a : A)
  | Raise (e : exn)
  | OutOfFuel.

Arguments Ok {A} a.
Arguments Raise {A} e.
Arguments OutOfFuel {A}.

(** ** The object *)

(** Instance attributes set by [__init__]: [self.x] and [self.y]. *)
Record MyDataset (V : Type) : Type := mkMyDataset {
  x : list V;
  y : list V
}.

Arguments mkMyDataset {V} _ _.
Arguments x {V} _.
Arguments y {V} _.

(** The iterator Python builds for an object without [__iter__]: it only
    remembers the next index. *)
Record seqiter : Type := mkSeqiter {
  it_index : Z
}.

Section Dataset.

Context {V : Type}.

(** ** Built-in list operations *)

(** [len(l)]. *)
Definition len (l : list V) : Z := Z.of_nat (length l).

(** [l[i]] for a list: a negative index counts from the end, and an index
    that is still out of range after that raises [IndexError]. *)
Definition list_getitem (l : list V) (i : Z) : result V :=
  let j := if bool_decide (i < 0) then i + len l else i in
  if bool_decide (0 ≤ j < len l) then
    match l !! Z.to_nat j with
    | Some v => Ok v
    | None => Raise IndexError
    end
  else Raise IndexError.

(** ** Methods as computations over [self] *)

Definition M (A : Type) : Type := MyDataset V → result A * MyDataset V.

Definition ret {A} (a : A) : M A := λ self, (Ok a, self).

Definition lift {A} (r : result A) : M A := λ self, (r, self).

Definition getattr {A} (field : MyDataset V → A) : M A :=
  λ self, (Ok (field self), self).

Definition bind {A B} (m : M A) (k : A → M B) : M B :=
  λ self,
    match m self with
    | (Ok a, self') => k a self'
    | (Raise e, self') => (Raise e, self')
    | (OutOfFuel, self') => (OutOfFuel, self')
    end.

Notation "v <- m ;; k" := (bind m (λ v, k))
  (at level 100, m at next level, right associativity).

(** [MyDataset(x, y)]: the constructor call runs [__init__], which stores
    both arguments and checks nothing. *)
Definition __init__ (x0 y0 : list V) : result (MyDataset V) :=
  Ok {| x := x0; y := y0 |}.

(** [__len__]: [return len(self.y)]. *)
Definition __len__ : M Z :=
  ys <- getattr y ;;
  ret (len ys).

(** [__getitem__]: [return self.x[i], self.y[i]], left component first. *)
Definition __getitem__ (i : Z) : M (V * V) :=
  xs <- getattr x ;;
  a <- lift (list_getitem xs i) ;;
  ys <- getattr y ;;
  b <- lift (list_getitem ys i) ;;
  ret (a, b).

(** ** Iteration by the sequence protocol *)

(** [iter(dataset)]: a fresh iterator at index 0. *)
Definition iter_ : M seqiter := ret {| it_index := 0 |}.

(** [next(it)]: ask [__getitem__] for the current index; [IndexError] ends
    the iteration, a value advances the index. *)
Definition next_ (it : seqiter) : M (option (V * V) * seqiter) :=
  λ self,
    match __getitem__ (it_index it) self with
    | (Ok item, self') =>
        (Ok (Some item, {| it_index := it_index it + 1 |}), self')
    | (Raise IndexError, self') => (Ok (None, it), self')
    | (OutOfFuel, self') => (OutOfFuel, self')
    end.

(** [for item in it: acc = body(item, acc)], at most [fuel] calls of
    [next]. *)
Fixpoint for_in {A} (fuel : nat) (it : seqiter) (body : V * V → A → A)
    (acc : A) : M A :=
  match fuel with
  | O => lift OutOfFuel
  | S fuel' =>
      r <- next_ it ;;
      match r with
      | (Some item, it') => for_in fuel' it' body (body item acc)
      | (None, _) => ret acc
      end
  end.

(** [for item in dataset: ...].  [self.x[i]] raises at [i = len(self.x)] at
    the latest, so [len(self.x) + 1] calls of [next] are enough (see
    [for_in_fuel]). *)
Definition for_each {A} (body : V * V → A → A) (acc : A) : M A :=
  λ self,
    (it <- iter_ ;;
     for_in (S (length (x self))) it body acc) self.

(** [list(dataset)]: append every item in turn. *)
Definition list_ : M (list (V * V)) :=
  for_each (λ item acc, acc ++ [item]) [].

(** ** [zip( *args)] *)

(** The items of a 2-tuple, as [zip] iterates over them. *)
Definition tuple_items (p : V * V) : list V := [p.1; p.2].

(** One round of [zip]: the next element of every argument, or [None] as
    soon as one argument is exhausted. *)
Fixpoint heads (rows : list (list V)) : option (list V) :=
  match rows with
  | [] => Some []
  | [] :: _ => None
  | (h :: _) :: rows' =>
      match heads rows' with
      | Some hs => Some (h :: hs)
      | None => None
      end
  end.

(** [zip(r, *rs)], by recursion on the first argument. *)
Fixpoint zip_rows (r : list V) (rs : list (list V)) : list (list V) :=
  match r with
  | [] => []
  | h :: r' =>
      match heads rs with
      | Some hs => (h :: hs) :: zip_rows r' (tail <$> rs)
      | None => []
      end
  end.

(** [list(zip( *args))]: with no argument at all [zip] yields nothing. *)
Definition zip_star (args : list (list V)) : list (list V) :=
  match args with
  | [] => []
  | r :: rs => zip_rows r rs
  end.

(** [list(zip( *dataset))]: the star unpacks the dataset by iterating it. *)
Definition list_zip_star : M (list (list V)) :=
  args <- list_ ;;
  ret (zip_star (tuple_items <$> args)).

(** ** The [Counter] loop *)

Context `{Countable V}.

(** [c[k]] on a [Counter]: a missing key reads as 0. *)
Definition counter_get (c : gmap V Z) (k : V) : Z := default 0 (c !! k).

(** [label_counter[label] += 1]. *)
Definition counter_incr (item : V * V) (c : gmap V Z) : gmap V Z :=
  let '(_, label) := item in
  <[label := counter_get c label + 1]> c.

(** [label_counter = Counter()], then the loop over the dataset. *)
Definition label_counter : M (gmap V Z) :=
  for_each counter_incr ∅.

End Dataset.

(** ** Vocabulary of the statements *)

(** Number of occurrences of [k] in [l]. *)
Definition occurrences `{EqDecision V} (k : V) (l : list V) : nat :=
  length (filter (λ v, v = k) l).

(** The pairs a traversal of [self] meets: the positions where both lists
    have an element. *)
Definition pairs_of {V} (self : MyDataset V) : list (V * V) :=
  zip (x self) (y self).

(** The inputs of the notebook. *)
Definition notebook_x : list Z := [1; 2; 3; 4; 5].
Definition notebook_y : list Z := [0; 0; 1; 0; 1].
Definition dataset : MyDataset Z := mkMyDataset notebook_x notebook_y.

(** [sum(c.values())] for a [Counter]. *)
Definition counter_total `{Countable V} (c : gmap V Z) : Z :=
  map_fold (λ _ v total, v + total) 0 c.

(** A dataset whose features outnumber its labels. *)
Definition long_features : MyDataset Z := mkMyDataset [1; 2; 3] [0; 1].

(** * Properties *)

Section ListIndexing.

Context {V : Type}.
Implicit Types (l : list V) (i : Z) (n : nat).

Lemma list_getitem_nat l n :
  list_getitem l (Z.of_nat n) = from_option Ok (Raise IndexError) (l !! n).
Proof.
  unfold list_getitem, len.
  rewrite (bool_decide_eq_false_2 (Z.of_nat n < 0)) by lia.
  case_bool_decide as Hn.
  - rewrite Nat2Z.id. by destruct (l !! n).
  - rewrite (proj2 (lookup_ge_None l n)); [done | lia].
Qed.

Lemma list_getitem_wrap l i :
  - len l ≤ i < 0 → list_getitem l i = list_getitem l (i + len l).
Proof.
  intros Hi. unfold list_getitem.
  rewrite (bool_decide_eq_true_2 (i < 0)) by lia.
  by rewrite (bool_decide_eq_false_2 (i + len l < 0)) by lia.
Qed.

Lemma list_getitem_out l i :
  len l ≤ i ∨ i < - len l → list_getitem l i = Raise IndexError.
Proof.
  intros Hi. unfold list_getitem.
  destruct (bool_decide (i < 0)) eqn:Hneg;
    [apply bool_decide_eq_true_1 in Hneg | apply bool_decide_eq_false_1 in Hneg];
    by rewrite bool_decide_eq_false_2 by lia.
Qed.

Lemma list_getitem_in l i :
  0 ≤ i < len l →
  ∃ v, l !! Z.to_nat i = Some v ∧ list_getitem l i = Ok v.
Proof.
  intros Hi. unfold len in Hi.
  destruct (lookup_lt_is_Some_2 l (Z.to_nat i)) as [v Hv]; [lia |].
  exists v. split; [done |].
  rewrite <- (Z2Nat.id i) at 1 by lia.
  by rewrite list_getitem_nat, Hv.
Qed.

(** List indexing never runs out of fuel: it returns or raises. *)
Lemma list_getitem_cases l i :
  (∃ v, list_getitem l i = Ok v) ∨ list_getitem l i = Raise IndexError.
Proof.
  unfold list_getitem. case_bool_decide; [| by right].
  destruct (l !! _) as [v |]; [left; by exists v | by right].
Qed.

End ListIndexing.

Section Methods.

Context {V : Type}.
Implicit Types (self : MyDataset V) (i : Z) (n : nat).

Lemma len_run self : __len__ self = (Ok (len (y self)), self).
Proof. reflexivity. Qed.

(** [__getitem__] in terms of its two list lookups. *)
Lemma getitem_run self i :
  __getitem__ i self =
    (match list_getitem (x self) i with
     | Ok a =>
         match list_getitem (y self) i with
         | Ok b => Ok (a, b)
         | Raise e => Raise e
         | OutOfFuel => OutOfFuel
         end
     | Raise e => Raise e
     | OutOfFuel => OutOfFuel
     end, self).
Proof.
  unfold __getitem__, bind, getattr, lift, ret.
  destruct (list_getitem (x self) i); [| done..].
  by destruct (list_getitem (y self) i).
Qed.

Lemma getitem_frame self i : (__getitem__ i self).2 = self.
Proof. by rewrite getitem_run. Qed.

Lemma getitem_nat self n :
  __getitem__ (Z.of_nat n) self =
    (from_option Ok (Raise IndexError) (pairs_of self !! n), self).
Proof.
  rewrite getitem_run, !list_getitem_nat. unfold pairs_of.
  rewrite lookup_zip_with.
  destruct (x self !! n); [| done]. by destruct (y self !! n).
Qed.

Lemma getitem_out self i :
  len (y self) ≤ i ∨ i < - len (y self) →
  __getitem__ i self = (Raise IndexError, self).
Proof.
  intros Hi. rewrite getitem_run, (list_getitem_out (y self)) by done.
  by destruct (list_getitem_cases (x self) i) as [[a ->] | ->].
Qed.

Lemma next_nat self n :
  next_ {| it_index := Z.of_nat n |} self =
    (Ok (match pairs_of self !! n with
         | Some item => (Some item, {| it_index := Z.of_nat (S n) |})
         | None => (None, {| it_index := Z.of_nat n |})
         end), self).
Proof.
  unfold next_. cbn [it_index]. rewrite getitem_nat.
  destruct (pairs_of self !! n); cbn; [| done].
  do 4 f_equal. lia.
Qed.

(** Enough fuel: from index [n], a loop with more fuel than there are pairs
    left folds the body over the remaining pairs and stops normally, leaving
    [self] as it was. *)
Lemma for_in_fuel {A} (body : V * V → A → A) self fuel n acc :
  (n ≤ length (pairs_of self))%nat →
  (length (pairs_of self) - n < fuel)%nat →
  for_in fuel {| it_index := Z.of_nat n |} body acc self =
    (Ok (foldl (λ a item, body item a) acc (drop n (pairs_of self))), self).
Proof.
  revert n acc. induction fuel as [| fuel IH]; intros n acc Hn Hfuel; [lia |].
  cbn [for_in]. unfold bind at 1. rewrite next_nat.
  destruct (pairs_of self !! n) as [item |] eqn:Hitem.
  - rewrite (drop_S _ _ _ Hitem). cbn [foldl].
    apply lookup_lt_Some in Hitem. apply IH; lia.
  - apply lookup_ge_None in Hitem.
    by rewrite drop_ge by lia.
Qed.

Lemma length_pairs_of self :
  length (pairs_of self) = (length (x self) `min` length (y self))%nat.
Proof. apply length_zip_with. Qed.

(** A [for] loop over the dataset is a left fold over its pairs. *)
Lemma for_each_run {A} (body : V * V → A → A) acc self :
  for_each body acc self =
    (Ok (foldl (λ a item, body item a) acc (pairs_of self)), self).
Proof.
  unfold for_each, iter_, bind at 1, ret at 1.
  pose proof (length_pairs_of self).
  by rewrite (for_in_fuel body self _ 0) by lia.
Qed.

(** More fuel than [for_each] gives changes nothing. *)
Lemma for_in_more_fuel {A} (body : V * V → A → A) acc self fuel :
  (length (x self) < fuel)%nat →
  for_in fuel {| it_index := 0 |} body acc self = for_each body acc self.
Proof.
  intros Hfuel. rewrite for_each_run.
  pose proof (length_pairs_of self).
  by rewrite (for_in_fuel body self _ 0) by lia.
Qed.

Lemma foldl_snoc_app {A} (acc l : list A) :
  foldl (λ a item, a ++ [item]) acc l = acc ++ l.
Proof.
  revert acc. induction l as [| a l IH]; intros acc; cbn.
  - by rewrite app_nil_r.
  - by rewrite IH, <- app_assoc.
Qed.

Lemma list_run self : list_ self = (Ok (pairs_of self), self).
Proof. unfold list_. by rewrite for_each_run, foldl_snoc_app. Qed.

End Methods.

Section Consumers.

Context `{Countable V}.
Implicit Types (c : gmap V Z) (k : V) (ps : list (V * V)).

Lemma occurrences_cons k v (l : list V) :
  occurrences k (v :: l) =
    if decide (v = k) then S (occurrences k l) else occurrences k l.
Proof. unfold occurrences. rewrite filter_cons. by case_decide. Qed.

(** The counter after the loop, key by key: untouched where the label does
    not occur, raised by the number of occurrences where it does. *)
Lemma counter_fold_lookup ps c k :
  foldl (λ a item, counter_incr item a) c ps !! k =
    if decide (occurrences k ps.*2 = 0%nat) then c !! k
    else Some (counter_get c k + Z.of_nat (occurrences k ps.*2)).
Proof.
  revert c. induction ps as [| [data label] ps IH]; intros c; [done |].
  cbn [foldl fmap list_fmap snd]. rewrite IH, occurrences_cons.
  unfold counter_incr, counter_get.
  destruct (decide (label = k)) as [-> | Hne].
  - rewrite lookup_insert_eq. cbn [default].
    repeat case_decide; try lia; f_equal; unfold id; lia.
  - rewrite lookup_insert_ne by done. by repeat case_decide.
Qed.

Lemma label_counter_run (self : MyDataset V) :
  ∃ c, label_counter self = (Ok c, self) ∧
    ∀ k, c !! k =
      if decide (occurrences k (pairs_of self).*2 = 0%nat) then None
      else Some (Z.of_nat (occurrences k (pairs_of self).*2)).
Proof.
  unfold label_counter. rewrite for_each_run.
  eexists. split; [done |]. intros k.
  rewrite counter_fold_lookup. unfold counter_get.
  rewrite lookup_empty. by case_decide.
Qed.

End Consumers.

Section Unzip.

Context {V : Type}.
Implicit Types (ps : list (V * V)).

Lemma heads_fmap {A} (f : A → list V) (g : A → V) (t : A → list V)
    (l : list A) :
  (∀ a, f a = g a :: t a) → heads (f <$> l) = Some (g <$> l).
Proof.
  intros Hf. induction l as [| a l IH]; [done |].
  cbn. by rewrite Hf, IH.
Qed.

(** On at least one pair, [zip( *pairs)] is the list of first components
    followed by the list of second components. *)
Lemma zip_star_pairs ps :
  ps ≠ [] → zip_star (tuple_items <$> ps) = [ps.*1; ps.*2].
Proof.
  destruct ps as [| [a b] ps]; [done | intros _].
  cbn [fmap list_fmap zip_star tuple_items zip_rows fst snd].
  rewrite (heads_fmap _ fst (λ p, [p.2])) by done.
  rewrite <- list_fmap_compose.
  by rewrite (heads_fmap _ snd (λ _, [])) by done.
Qed.

Lemma list_zip_star_run (self : MyDataset V) :
  list_zip_star self = (Ok (zip_star (tuple_items <$> pairs_of self)), self).
Proof. unfold list_zip_star, bind. by rewrite list_run. Qed.

End Unzip.

(** * The dataset's contract *)

Section Construction.

Context {V : Type}.
Implicit Types (f l : list V) (self : MyDataset V) (i : Z).

Lemma init_run f l self : __init__ f l = Ok self → self = mkMyDataset f l.
Proof. by intros [= <-]. Qed.

Lemma pairs_of_init f l : pairs_of (mkMyDataset f l) = zip f l.
Proof. reflexivity. Qed.

(** C1 (amended).  Construction checks no lengths: for every pair of lists
    of different lengths, [MyDataset(features, labels)] succeeds and the
    object holds both lists as given. *)
Theorem init_accepts_mismatch f l :
  length f ≠ length l →
  ∃ self, __init__ f l = Ok self ∧ x self = f ∧ y self = l.
Proof. intros _. by eexists. Qed.

(** C2.  For a dataset built from two lists of the same length N,
    [__len__] returns N, and for every [0 <= i < N], [__getitem__(i)] returns
    the pair of the i-th feature and the i-th label. *)
Theorem len_getitem_in_range f l self :
  length f = length l →
  __init__ f l = Ok self →
  __len__ self = (Ok (len f), self) ∧
  ∀ i, 0 ≤ i < len f →
    ∃ a b, f !! Z.to_nat i = Some a ∧ l !! Z.to_nat i = Some b ∧
      __getitem__ i self = (Ok (a, b), self).
Proof.
  intros Hlen ->%init_run. split.
  - rewrite len_run. cbn. unfold len. by rewrite Hlen.
  - intros i Hi. rewrite getitem_run. cbn [x y].
    destruct (list_getitem_in f i) as (a & Ha & ->); [done |].
    destruct (list_getitem_in l i) as (b & Hb & ->); [unfold len in *; lia |].
    by exists a, b.
Qed.

(** C3 (amended).  For a dataset of size N, [__getitem__(i)] raises
    [IndexError] for every [i >= N] and every [i < -N]. *)
Theorem getitem_out_of_range self (n : Z) i :
  __len__ self = (Ok n, self) →
  n ≤ i ∨ i < - n →
  __getitem__ i self = (Raise IndexError, self).
Proof.
  rewrite len_run. intros [= <-] Hi. by apply getitem_out.
Qed.

(** C9.  For a dataset built from two lists of the same length N > 0 and a
    negative index [-N <= i <= -1], [__getitem__(i)] succeeds and returns the
    pair at position [N + i]. *)
Theorem getitem_negative_index f l self i :
  length f = length l →
  __init__ f l = Ok self →
  0 < len f →
  - len f ≤ i ≤ -1 →
  ∃ a b, f !! Z.to_nat (len f + i) = Some a ∧
    l !! Z.to_nat (len f + i) = Some b ∧
    __getitem__ i self = (Ok (a, b), self).
Proof.
  intros Hlen ->%init_run Hpos Hi.
  assert (len l = len f) as Hl by (unfold len; by rewrite Hlen).
  rewrite getitem_run. cbn [x y].
  rewrite (list_getitem_wrap f), (list_getitem_wrap l) by lia.
  rewrite Hl, (Z.add_comm i).
  destruct (list_getitem_in f (len f + i)) as (a & Ha & ->); [lia |].
  destruct (list_getitem_in l (len f + i)) as (b & Hb & ->); [lia |].
  by exists a, b.
Qed.

End Construction.

Section Traversal.

Context {V : Type}.
Implicit Types (f l : list V) (self : MyDataset V).

(** C6.  For a dataset built from two lists of the same length N,
    [list(dataset)] returns N items, and the item at position n is what
    [__getitem__(n)] returns: the list is [[get(0); ...; get(N-1)]]. *)
Theorem list_is_getitem_sequence f l self :
  length f = length l →
  __init__ f l = Ok self →
  ∃ out, list_ self = (Ok out, self) ∧
    length out = length f ∧
    ∀ n : nat, (n < length f)%nat →
      ∃ item, out !! n = Some item ∧
        __getitem__ (Z.of_nat n) self = (Ok item, self).
Proof.
  intros Hlen ->%init_run. exists (zip f l).
  assert (length (zip f l) = length f) as Hzip
    by (rewrite length_zip_with; lia).
  split; [apply list_run | split; [done |]].
  intros n Hn.
  destruct (lookup_lt_is_Some_2 (zip f l) n) as [item Hitem]; [lia |].
  exists item. split; [done |].
  by rewrite getitem_nat, pairs_of_init, Hitem.
Qed.

(** C7.  Iterating a dataset yields its items in index order from 0: the
    item at position n is what [__getitem__(n)] returns, nothing follows the
    first index that fails, and with lists of equal length there are
    [len(dataset)] items.  Every loop folds its body over exactly these items
    and leaves the object as it was; a traversal made after any other loop,
    or after another traversal, starts again at index 0 and yields the same
    items. *)
Theorem iteration_restartable self :
  ∃ out,
    list_ self = (Ok out, self) ∧
    (∀ (n : nat) item,
       out !! n = Some item ↔
       __getitem__ (Z.of_nat n) self = (Ok item, self)) ∧
    (length (x self) = length (y self) →
       __len__ self = (Ok (len out), self)) ∧
    (∀ A (body : V * V → A → A) (acc : A),
       for_each body acc self =
         (Ok (foldl (λ a item, body item a) acc out), self)) ∧
    (∀ A (body : V * V → A → A) (acc : A),
       bind (for_each body acc) (λ _, list_) self = (Ok out, self)) ∧
    bind list_ (λ first, bind list_ (λ second, ret (first, second))) self =
      (Ok (out, out), self).
Proof.
  exists (pairs_of self). split_and!.
  - apply list_run.
  - intros n item. rewrite getitem_nat.
    destruct (pairs_of self !! n) as [item' |]; cbn; [| by split].
    split; by intros [= ->].
  - intros Hlen. rewrite len_run. unfold len.
    rewrite length_pairs_of, Hlen. do 3 f_equal. lia.
  - intros A body acc. apply for_each_run.
  - intros A body acc. unfold bind. by rewrite for_each_run, list_run.
  - unfold bind. by rewrite !list_run.
Qed.

(** C8.  [MyDataset([], [])] succeeds; the object has length 0, iterating it
    yields nothing, and [__getitem__(0)] raises [IndexError]. *)
Theorem empty_dataset :
  ∃ self : MyDataset V,
    __init__ [] [] = Ok self ∧
    __len__ self = (Ok 0, self) ∧
    list_ self = (Ok [], self) ∧
    __getitem__ 0 self = (Raise IndexError, self).
Proof. by eexists. Qed.

(** C10.  With lists of different lengths, construction succeeds,
    [__len__] is the length of the labels alone, and iteration yields
    [min(len(features), len(labels))] items; when the features are the
    shorter list, [__len__] differs from the number of items. *)
Theorem mismatch_len_vs_iteration f l :
  length f ≠ length l →
  ∃ self out,
    __init__ f l = Ok self ∧
    __len__ self = (Ok (len l), self) ∧
    list_ self = (Ok out, self) ∧
    length out = (length f `min` length l)%nat ∧
    ((length f < length l)%nat → len l ≠ len out).
Proof.
  intros Hne. exists (mkMyDataset f l), (zip f l).
  assert (length (zip f l) = length f `min` length l)%nat as Hzip
    by apply length_zip_with.
  repeat split; [apply list_run | done |].
  intros Hlt. unfold len. lia.
Qed.

(** For lists of the same non-zero length, [list(zip( *dataset))] gives the
    features back, then the labels. *)
Lemma list_zip_star_roundtrip f l self :
  f ≠ [] →
  length f = length l →
  __init__ f l = Ok self →
  list_zip_star self = (Ok [f; l], self).
Proof.
  intros Hf Hlen ->%init_run.
  rewrite list_zip_star_run, pairs_of_init, zip_star_pairs.
  - by rewrite fst_zip, snd_zip by lia.
  - destruct f, l; done.
Qed.

(** C4.  On the empty dataset [list(zip( *dataset))] is the empty list, not
    the two empty sequences the round trip asks for. *)
Theorem list_zip_star_empty :
  ∃ self : MyDataset V,
    __init__ [] [] = Ok self ∧
    list_zip_star self = (Ok [], self) ∧
    list_zip_star self ≠ (Ok [[]; []], self).
Proof. by eexists. Qed.

End Traversal.

Section Counting.

Context `{Countable V}.
Implicit Types (f l : list V) (self : MyDataset V).

(** C5.  For a dataset built from two lists of the same length, the counter
    loop ends with a mapping whose keys are exactly the labels that occur,
    each with its number of occurrences in the labels. *)
Theorem label_counter_frequency f l self :
  length f = length l →
  __init__ f l = Ok self →
  ∃ c, label_counter self = (Ok c, self) ∧
    ∀ k, c !! k =
      if decide (occurrences k l = 0%nat) then None
      else Some (Z.of_nat (occurrences k l)).
Proof.
  intros Hlen ->%init_run.
  destruct (label_counter_run (mkMyDataset f l)) as (c & Hrun & Hc).
  exists c. split; [done |]. intros k.
  by rewrite Hc, pairs_of_init, snd_zip by lia.
Qed.

End Counting.

(** * The notebook's inputs *)

(** C1, counterexample: [MyDataset([1,2,3], [0,0])] does not fail. *)
Lemma init_mismatch_succeeds :
  length [1; 2; 3] ≠ length [0; 0] ∧
  __init__ [1; 2; 3] [0; 0] = Ok (mkMyDataset [1; 2; 3] [0; 0]) ∧
  ∀ e, __init__ [1; 2; 3] [0; 0] ≠ Raise e.
Proof. by repeat split. Qed.

(** C1 (amended) at [[1,2,3]] and [[0,0]]. *)
Lemma init_accepts_mismatch_witness :
  length [1; 2; 3] ≠ length [0; 0] ∧
  ∃ self, __init__ [1; 2; 3] [0; 0] = Ok self ∧
    x self = [1; 2; 3] ∧ y self = [0; 0].
Proof.
  split; [cbn; lia |].
  apply (init_accepts_mismatch [1; 2; 3] [0; 0]). cbn. lia.
Defined.

(** C2 at the notebook's inputs: length 5. *)
Lemma len_getitem_in_range_witness :
  length notebook_x = length notebook_y ∧
  __init__ notebook_x notebook_y = Ok dataset ∧
  __len__ dataset = (Ok 5, dataset) ∧
  ∀ i, 0 ≤ i < 5 →
    ∃ a b, notebook_x !! Z.to_nat i = Some a ∧
      notebook_y !! Z.to_nat i = Some b ∧
      __getitem__ i dataset = (Ok (a, b), dataset).
Proof.
  split; [reflexivity |]. split; [reflexivity |].
  apply (len_getitem_in_range notebook_x notebook_y dataset); reflexivity.
Defined.

(** C7 on the notebook's dataset: both traversals list the five pairs. *)
Lemma iteration_restartable_witness :
  ∃ out,
    out = [(1, 0); (2, 0); (3, 1); (4, 0); (5, 1)] ∧
    list_ dataset = (Ok out, dataset) ∧
    __len__ dataset = (Ok (len out), dataset) ∧
    bind list_ (λ first, bind list_ (λ second, ret (first, second))) dataset =
      (Ok (out, out), dataset).
Proof.
  destruct (iteration_restartable dataset)
    as (out & Hrun & _ & Hlen & _ & _ & Htwice).
  exists out. split_and!.
  - vm_compute in Hrun. by injection Hrun as <-.
  - exact Hrun.
  - apply Hlen. reflexivity.
  - exact Htwice.
Defined.

(** C3, counterexample: on the notebook's dataset of size 5, the index -1 is
    outside [[0, 5)] and [__getitem__(-1)] returns the last pair. *)
Lemma getitem_negative_succeeds :
  __len__ dataset = (Ok 5, dataset) ∧
  ¬ (0 ≤ -1 < 5) ∧
  __getitem__ (-1) dataset = (Ok (5, 1), dataset) ∧
  __getitem__ (-1) dataset ≠ (Raise IndexError, dataset).
Proof. repeat split; (done || lia). Qed.

(** C3 (amended) on the notebook's dataset, at the indices 5 and -6. *)
Lemma getitem_out_of_range_witness :
  __len__ dataset = (Ok 5, dataset) ∧
  (5 ≤ 5 ∨ 5 < - 5) ∧ (5 ≤ -6 ∨ -6 < - 5) ∧
  __getitem__ 5 dataset = (Raise IndexError, dataset) ∧
  __getitem__ (-6) dataset = (Raise IndexError, dataset).
Proof.
  split; [reflexivity |]. split; [left; lia |]. split; [right; lia |].
  split.
  - apply (getitem_out_of_range dataset 5 5); [reflexivity | left; lia].
  - apply (getitem_out_of_range dataset 5 (-6)); [reflexivity | right; lia].
Defined.

(** C9 on the notebook's dataset, at the index -2. *)
Lemma getitem_negative_index_witness :
  length notebook_x = length notebook_y ∧
  __init__ notebook_x notebook_y = Ok dataset ∧
  0 < len notebook_x ∧
  - len notebook_x ≤ -2 ≤ -1 ∧
  ∃ a b, notebook_x !! Z.to_nat (len notebook_x + -2) = Some a ∧
    notebook_y !! Z.to_nat (len notebook_x + -2) = Some b ∧
    __getitem__ (-2) dataset = (Ok (a, b), dataset).
Proof.
  split; [reflexivity |]. split; [reflexivity |].
  split; [reflexivity |]. split; [by vm_compute |].
  apply (getitem_negative_index notebook_x notebook_y dataset (-2));
    (reflexivity || by vm_compute).
Defined.

(** C6 at the notebook's inputs: the output of [list(dataset)]. *)
Lemma list_is_getitem_sequence_witness :
  length notebook_x = length notebook_y ∧
  __init__ notebook_x notebook_y = Ok dataset ∧
  ∃ out, list_ dataset = (Ok out, dataset) ∧
    out = [(1, 0); (2, 0); (3, 1); (4, 0); (5, 1)] ∧
    ∀ n : nat, (n < 5)%nat →
      ∃ item, out !! n = Some item ∧
        __getitem__ (Z.of_nat n) dataset = (Ok item, dataset).
Proof.
  split; [reflexivity |]. split; [reflexivity |].
  destruct (list_is_getitem_sequence notebook_x notebook_y dataset
              eq_refl eq_refl) as (out & Hrun & _ & Hget).
  exists out. split; [exact Hrun |]. split; [| exact Hget].
  vm_compute in Hrun. by injection Hrun as <-.
Defined.

(** C10 at [[1,2]] and [[0,0,0]]: length 3, two items. *)
Lemma mismatch_len_vs_iteration_witness :
  length [1; 2] ≠ length [0; 0; 0] ∧
  ∃ self out,
    __init__ [1; 2] [0; 0; 0] = Ok self ∧
    __len__ self = (Ok 3, self) ∧
    list_ self = (Ok out, self) ∧
    length out = 2%nat ∧
    ((2 < 3)%nat → 3 ≠ len out).
Proof.
  split; [cbn; lia |].
  apply (mismatch_len_vs_iteration [1; 2] [0; 0; 0]). cbn. lia.
Defined.

(** C5 at the notebook's inputs: the printed [Counter({0: 3, 1: 2})]. *)
Lemma label_counter_frequency_witness :
  length notebook_x = length notebook_y ∧
  __init__ notebook_x notebook_y = Ok dataset ∧
  ∃ c, label_counter dataset = (Ok c, dataset) ∧
    c = {[ 0 := 3; 1 := 2 ]} ∧
    ∀ k, c !! k =
      if decide (occurrences k notebook_y = 0%nat) then None
      else Some (Z.of_nat (occurrences k notebook_y)).
Proof.
  split; [reflexivity |]. split; [reflexivity |].
  destruct (label_counter_frequency notebook_x notebook_y dataset
              eq_refl eq_refl) as (c & Hrun & Hc).
  exists c. split; [exact Hrun |]. split; [| exact Hc].
  vm_compute in Hrun. by injection Hrun as <-.
Defined.

(** The notebook's last cell. *)
Example list_zip_star_notebook :
  list_zip_star dataset = (Ok [notebook_x; notebook_y], dataset).
Proof. reflexivity. Qed.

(** * Datasets of any shape

    What the methods and the consumers do on every dataset, the two lists of
    equal length or not. *)

Section AnyIndex.

Context {V : Type}.
Implicit Types (l : list V) (self : MyDataset V) (i : Z).

Lemma list_getitem_neg l i :
  - len l ≤ i < 0 →
  ∃ v, l !! Z.to_nat (len l + i) = Some v ∧ list_getitem l i = Ok v.
Proof.
  intros Hi. rewrite list_getitem_wrap, (Z.add_comm i) by lia.
  apply list_getitem_in. lia.
Qed.

Lemma list_getitem_ok l i :
  - len l ≤ i < len l → ∃ v, list_getitem l i = Ok v.
Proof.
  intros Hi. destruct (decide (i < 0)).
  - destruct (list_getitem_neg l i) as (v & _ & Hv); [lia | by exists v].
  - destruct (list_getitem_in l i) as (v & _ & Hv); [lia | by exists v].
Qed.

(** X1.  [__getitem__(i)] returns a pair exactly when [i] is a valid index
    of both lists, negative indices included: [-m <= i < m] for [m] the
    smaller length.  Everywhere else it raises [IndexError]. *)
Theorem getitem_succeeds_iff self i :
  let m := Z.min (len (x self)) (len (y self)) in
  if bool_decide (- m ≤ i < m)
  then ∃ item, __getitem__ i self = (Ok item, self)
  else __getitem__ i self = (Raise IndexError, self).
Proof.
  intros m. rewrite getitem_run. case_bool_decide as Hi.
  - destruct (list_getitem_ok (x self) i) as [a ->]; [lia |].
    destruct (list_getitem_ok (y self) i) as [b ->]; [lia |].
    by exists (a, b).
  - destruct (decide (- len (x self) ≤ i < len (x self))) as [Hx | Hx].
    + destruct (list_getitem_ok (x self) i) as [a ->]; [done |].
      by rewrite list_getitem_out by lia.
    + by rewrite list_getitem_out by lia.
Qed.

(** X2.  A negative index counts from the end of each list separately:
    [__getitem__(i)] pairs [self.x[len(self.x) + i]] with
    [self.y[len(self.y) + i]], which are different positions when the
    lengths differ. *)
Theorem getitem_negative_from_each_end self i :
  - Z.min (len (x self)) (len (y self)) ≤ i < 0 →
  ∃ a b,
    x self !! Z.to_nat (len (x self) + i) = Some a ∧
    y self !! Z.to_nat (len (y self) + i) = Some b ∧
    __getitem__ i self = (Ok (a, b), self).
Proof.
  intros Hi. rewrite getitem_run.
  destruct (list_getitem_neg (x self) i) as (a & Ha & ->); [lia |].
  destruct (list_getitem_neg (y self) i) as (b & Hb & ->); [lia |].
  by exists a, b.
Qed.

End AnyIndex.

Section AnyTraversal.

Context {V : Type}.
Implicit Types (f l : list V) (self : MyDataset V).

Lemma fst_zip_take f l : (zip f l).*1 = take (length l) f.
Proof.
  revert l. induction f as [| a f IH]; intros [| b l]; cbn; [done.. |].
  by rewrite IH.
Qed.

Lemma snd_zip_take f l : (zip f l).*2 = take (length f) l.
Proof.
  revert l. induction f as [| a f IH]; intros [| b l]; cbn; [done.. |].
  by rewrite IH.
Qed.

(** X3.  [list(dataset)] cuts both lists to the shorter one and pairs them
    position by position: the features listed are the first [len(self.y)]
    features, the labels listed the first [len(self.x)] labels. *)
Theorem list_truncates self :
  ∃ out, list_ self = (Ok out, self) ∧
    out.*1 = take (length (y self)) (x self) ∧
    out.*2 = take (length (x self)) (y self).
Proof.
  exists (pairs_of self). split; [apply list_run |].
  unfold pairs_of. by rewrite fst_zip_take, snd_zip_take.
Qed.

(** X4.  On every dataset, the item at position n of [list(dataset)] is what
    [__getitem__(n)] returns, and [__getitem__(n)] returns nothing past the
    end of that list. *)
Theorem list_item_iff_getitem self :
  ∃ out, list_ self = (Ok out, self) ∧
    ∀ (n : nat) item,
      out !! n = Some item ↔ __getitem__ (Z.of_nat n) self = (Ok item, self).
Proof.
  exists (pairs_of self). split; [apply list_run |].
  intros n item. rewrite getitem_nat.
  destruct (pairs_of self !! n) as [item' |]; cbn; [| by split].
  split; [by intros [= ->] | by intros [= ->]].
Qed.

(** X5.  [len(dataset)] is the number of items [list(dataset)] produces
    exactly when the labels are not longer than the features. *)
Theorem len_agrees_iff self :
  ∃ n out,
    __len__ self = (Ok n, self) ∧
    list_ self = (Ok out, self) ∧
    (n = len out ↔ (length (y self) ≤ length (x self))%nat).
Proof.
  exists (len (y self)), (pairs_of self).
  split; [apply len_run | split; [apply list_run |]].
  unfold len. rewrite length_pairs_of. lia.
Qed.

Lemma zip_rows_two f l : zip_rows f [l] = tuple_items <$> zip f l.
Proof.
  revert l. induction f as [| a f IH]; intros [| b l]; cbn; [done.. |].
  by rewrite IH.
Qed.

(** X6.  [list(zip( *dataset))] on every dataset: the empty list as soon as
    one of the two lists is empty, and otherwise the two lists cut to the
    shorter length, features first. *)
Theorem list_zip_star_truncates self :
  list_zip_star self =
    (Ok (if bool_decide (length (x self) = 0 ∨ length (y self) = 0)%nat
         then []
         else [take (length (y self)) (x self);
               take (length (x self)) (y self)]), self).
Proof.
  rewrite list_zip_star_run. do 2 f_equal.
  case_bool_decide as Hempty.
  - unfold pairs_of.
    destruct Hempty as [->%nil_length_inv | ->%nil_length_inv];
      [done | by rewrite zip_with_nil_r].
  - rewrite zip_star_pairs.
    + unfold pairs_of. by rewrite fst_zip_take, snd_zip_take.
    + unfold pairs_of. destruct (x self), (y self); cbn in *; (done || lia).
Qed.

(** X7.  Transposing twice gives the items back: [zip( *...)] applied to
    the result of [list(zip( *dataset))] yields the items of
    [list(dataset)], even on the empty dataset. *)
Theorem zip_star_twice self :
  ∃ out, list_ self = (Ok out, self) ∧
    bind list_zip_star (λ columns, ret (zip_star columns)) self =
      (Ok (tuple_items <$> out), self).
Proof.
  exists (pairs_of self). split; [apply list_run |].
  unfold bind, ret. rewrite list_zip_star_run. do 2 f_equal.
  destruct (pairs_of self) as [| item ps] eqn:Hps; [done |].
  rewrite zip_star_pairs by done. cbn [zip_star].
  by rewrite zip_rows_two, zip_fst_snd.
Qed.

End AnyTraversal.

Section AnyCounting.

Context `{Countable V}.
Implicit Types (f l : list V) (self : MyDataset V) (c : gmap V Z) (k : V).

Lemma occurrences_zero k l : occurrences k l = 0%nat ↔ k ∉ l.
Proof.
  induction l as [| v l IH]; [split; [intros _; apply not_elem_of_nil | done] |].
  rewrite occurrences_cons, not_elem_of_cons.
  destruct (decide (v = k)) as [-> | Hne].
  - split; [lia | by intros [? _]].
  - rewrite IH. split; [intros ?; split; [congruence | done] | by intros [_ ?]].
Qed.

Lemma occurrences_perm k l l' :
  l ≡ₚ l' → occurrences k l = occurrences k l'.
Proof.
  intros Hperm. unfold occurrences.
  apply Permutation_length. by rewrite Hperm.
Qed.

Lemma counter_total_insert c k (v : Z) :
  counter_total (<[k:=v]> c) = counter_total c - counter_get c k + v.
Proof.
  unfold counter_total, counter_get.
  destruct (c !! k) as [w |] eqn:Hk; cbn [default]; unfold id.
  - rewrite <- insert_delete_eq.
    rewrite map_fold_insert_L; [| intros; lia | apply lookup_delete_eq].
    rewrite (map_fold_delete_L _ _ k w c); [cbn beta; lia | intros; lia | done].
  - rewrite map_fold_insert_L; [cbn beta; lia | intros; lia | done].
Qed.

Lemma counter_total_fold (ps : list (V * V)) c :
  counter_total (foldl (λ a item, counter_incr item a) c ps) =
    counter_total c + Z.of_nat (length ps).
Proof.
  revert c. induction ps as [| [data label] ps IH]; intros c; cbn [foldl].
  - cbn. lia.
  - rewrite IH. unfold counter_incr. rewrite counter_total_insert.
    cbn [length]. lia.
Qed.

(** X8.  On every dataset the counter holds, for each label, its number of
    occurrences among the first [len(self.x)] labels: labels past the end of
    the features are not counted. *)
Theorem label_counter_truncated self :
  ∃ c, label_counter self = (Ok c, self) ∧
    ∀ k,
      let seen := occurrences k (take (length (x self)) (y self)) in
      c !! k = if decide (seen = 0%nat) then None else Some (Z.of_nat seen).
Proof.
  destruct (label_counter_run self) as (c & Hrun & Hc).
  exists c. split; [done |]. intros k. cbn zeta.
  rewrite Hc. unfold pairs_of. by rewrite snd_zip_take.
Qed.

(** X9.  The keys of the counter are exactly the labels met by the loop, and
    every count stored is at least 1: no key is ever stored with a zero. *)
Theorem label_counter_keys self :
  ∃ c out,
    label_counter self = (Ok c, self) ∧
    list_ self = (Ok out, self) ∧
    ∀ k,
      (is_Some (c !! k) ↔ k ∈ out.*2) ∧
      (∀ v, c !! k = Some v → 1 ≤ v).
Proof.
  destruct (label_counter_run self) as (c & Hrun & Hc).
  exists c, (pairs_of self). split; [done |]. split; [apply list_run |].
  intros k. rewrite Hc.
  pose proof (occurrences_zero k (pairs_of self).*2) as Hzero.
  case_decide as Hocc; split.
  - split; [by intros [? ?] | intros Hin; by apply Hzero in Hin].
  - done.
  - split; [intros _ | by eexists].
    destruct (decide (k ∈ (pairs_of self).*2)) as [| Hout]; [done |].
    by apply Hzero in Hout.
  - intros v [= <-]. lia.
Qed.

(** X10.  The counts add up to the number of items the loop went through:
    [sum(label_counter.values())] equals the length of [list(dataset)]. *)
Theorem label_counter_total self :
  ∃ c out,
    label_counter self = (Ok c, self) ∧
    list_ self = (Ok out, self) ∧
    counter_total c = len out.
Proof.
  eexists _, (pairs_of self).
  split; [unfold label_counter; apply for_each_run |].
  split; [apply list_run |].
  rewrite counter_total_fold. unfold counter_total, len.
  rewrite map_fold_empty. lia.
Qed.

(** X11.  The counter ignores the features and the order of the labels: two
    datasets of equal-length lists whose labels are permutations of each
    other give the same counter. *)
Theorem label_counter_order_irrelevant f l f' l' :
  length f = length l →
  length f' = length l' →
  l ≡ₚ l' →
  (label_counter (mkMyDataset f l)).1 = (label_counter (mkMyDataset f' l')).1.
Proof.
  intros Hlen Hlen' Hperm.
  destruct (label_counter_run (mkMyDataset f l)) as (c & -> & Hc).
  destruct (label_counter_run (mkMyDataset f' l')) as (c' & -> & Hc').
  cbn [fst]. f_equal. apply map_eq. intros k.
  rewrite Hc, Hc', !pairs_of_init, !snd_zip by lia.
  by rewrite (occurrences_perm k l l').
Qed.

End AnyCounting.

(** * Concrete instances *)

(** X2 on a dataset of three features and two labels: the index -1 pairs
    the third feature with the second label. *)
Lemma getitem_negative_from_each_end_witness :
  - Z.min (len (x long_features)) (len (y long_features)) ≤ -1 < 0 ∧
  (∃ a b,
    x long_features !! 2%nat = Some a ∧
    y long_features !! 1%nat = Some b ∧
    __getitem__ (-1) long_features = (Ok (a, b), long_features)) ∧
  __getitem__ (-1) long_features = (Ok (3, 1), long_features).
Proof.
  split; [by vm_compute |]. split; [| reflexivity].
  apply (getitem_negative_from_each_end long_features (-1)). by vm_compute.
Defined.

(** X11 on two datasets with the labels [[0, 1]] and [[1, 0]]. *)
Lemma label_counter_order_irrelevant_witness :
  length [1; 2] = length [0; 1] ∧
  length [7; 8] = length [1; 0] ∧
  [0; 1] ≡ₚ [1; 0] ∧
  (label_counter (mkMyDataset [1; 2] [0; 1])).1 =
    (label_counter (mkMyDataset [7; 8] [1; 0])).1.
Proof.
  split; [reflexivity |]. split; [reflexivity |]. split; [apply perm_swap |].
  apply (label_counter_order_irrelevant [1; 2] [0; 1] [7; 8] [1; 0]);
    [reflexivity | reflexivity | apply perm_swap].
Defined.
